(** * The session manager of [frontend/src/contexts/AuthContext.jsx]

    A shallow embedding of the [AuthProvider] component: the mount effect
    (with its [fetchUserData]), [logout], [login] and [register], written in a
    small state-and-exception monad over the three things the component
    touches: [localStorage], the React state cell [user], and the outside
    world (network, router, console), which is recorded as a chronological
    trace of events.

    Scope of the model.  An operation is a function from state to state:
    every [await] is a sequence point, and [run] invokes each operation only
    after the one before has finished.  The one overlap that is modelled is
    the mount effect's, whose request is never awaited: it is also given in
    its two halves.  [localStorage], [navigate] and [console.error] never
    throw.  JavaScript numbers and the outside world (the network, the build
    environment) are interfaces of the development. *)

From stdpp Require Import base option strings list gmap pretty.

(** * The program

    ** Thrown values and completions *)

(** What a rejected promise or a [throw] carries: an error with its [name]
    ("TypeError", "SyntaxError", ...) and its message. *)
Record js_error := JsError { error_name : string; error_message : string }.

(** The outcome of evaluating a piece of JavaScript: a value, or an abrupt
    completion with a thrown error. *)
Inductive completion (A : Type) :=
| Normal (a : A)
| Throw (e : js_error).
Arguments Normal {A} a.
Arguments Throw {A} e.

Definition TypeError (msg : string) : js_error := JsError "TypeError" msg.

(** ** JavaScript numbers *)

(** IEEE doubles are kept abstract: the component only tests a number for
    truthiness and, when a server sends one as a token, prints it. *)
Class Numbers := {
  number : Type;
  number_truthy : number -> bool;
  number_to_string : number -> string
}.

Section AuthContext.

(** ** JavaScript values *)

Context {numbers : Numbers}.

(** The values the component handles: what [JSON.parse] produces, plus
    [undefined], which a missing property yields.  An object is the list of
    its own properties in insertion order, with distinct keys. *)
#[warnings="-register-all"]
Inductive value :=
| VUndefined
| VNull
| VBool (b : bool)
| VNum (n : number)
| VStr (s : string)
| VArr (elems : list value)
| VObj (props : list (string * value)).

(** ToBoolean, as used by [!x], [x || y] and [if (x)]. *)
Definition truthy (v : value) : bool :=
  match v with
  | VUndefined | VNull => false
  | VBool b => b
  | VNum n => number_truthy n
  | VStr s => negb (String.eqb s "")
  | VArr _ | VObj _ => true
  end.

(** [a || b] *)
Definition js_or (a b : value) : value := if truthy a then a else b.

Definition nullish (v : value) : bool :=
  match v with
  | VUndefined | VNull => true
  | _ => false
  end.

Fixpoint own_property (props : list (string * value)) (key : string) : value :=
  match props with
  | [] => VUndefined
  | (k, v) :: rest => if String.eqb k key then v else own_property rest key
  end.

(** [v.key] for the keys the component reads ([message], [token], [user]),
    none of which lives on a built-in prototype: an object answers with its
    own property, a primitive or an array with [undefined], and [null] and
    [undefined] throw. *)
Definition Get (v : value) (key : string) : completion value :=
  match v with
  | VUndefined | VNull =>
      Throw (TypeError ("Cannot read properties of null or undefined (reading '" +:+ key +:+ "')"))
  | VObj props => Normal (own_property props key)
  | _ => Normal VUndefined
  end.

(** [v?.key] *)
Definition Get_optional (v : value) (key : string) : completion value :=
  if nullish v then Normal VUndefined else Get v key.

Definition has_own_property (props : list (string * value)) (key : string) : bool :=
  existsb (fun kv => String.eqb (fst kv) key) props.

(** ToString, as applied by a template literal and by [localStorage.setItem].
    A parsed object prints as "[object Object]" unless it has an own
    [toString] property, which is never callable and makes the conversion
    throw; an array joins its elements with commas, [null] and [undefined]
    elements printing as the empty string. *)
Fixpoint ToString (v : value) : completion string :=
  match v with
  | VUndefined => Normal "undefined"
  | VNull => Normal "null"
  | VBool b => Normal (if b then "true" else "false")
  | VNum n => Normal (number_to_string n)
  | VStr s => Normal s
  | VArr elems =>
      let element x := if nullish x then Normal "" else ToString x in
      (fix join (xs : list value) : completion string :=
         match xs with
         | [] => Normal ""
         | [x] => element x
         | x :: rest =>
             match element x with
             | Throw e => Throw e
             | Normal s =>
                 match join rest with
                 | Throw e => Throw e
                 | Normal r => Normal (s +:+ "," +:+ r)
                 end
             end
         end) elems
  | VObj props =>
      if has_own_property props "toString"
      then Throw (TypeError "Cannot convert object to primitive value")
      else Normal "[object Object]"
  end.

(** ** HTTP exchanges *)

(** The argument of [fetch].  [body] holds the value handed to
    [JSON.stringify], not its serialisation. *)
Record request := Request {
  url : string;
  method : string;
  headers : list (string * string);
  body : option value
}.

(** The part of a [Response] the component looks at: [res.ok],
    [res.statusText], and what [res.json()] settles to (a parsed body, or a
    rejection when the body cannot be read or parsed). *)
Record response := Response {
  ok : bool;
  statusText : string;
  json_body : completion value
}.

(** What the promise returned by [fetch] settles to. *)
Inductive fetch_result :=
| Resolved (res : response)
| Rejected (e : js_error).

(** ** Observable effects *)

(** Second argument of a [console.error] call. *)
Inductive logged :=
| LoggedValue (v : value)
| LoggedError (e : js_error).

Inductive event :=
| EFetch (req : request) (out : fetch_result)
| ESetItem (key val : string)
| ERemoveItem (key : string)
| ENavigate (to : string)
| EConsoleError (label : string) (detail : logged).

(** ** State *)

(** [localStorage] is a string-keyed store of strings, [user] the React state
    cell of [useState(null)], [trace] everything observable done so far,
    oldest first. *)
Record world := World {
  localStorage : gmap string string;
  user : value;
  trace : list event
}.

(** The state at mount: [useState(null)], nothing done yet. *)
Definition mount (storage : gmap string string) : world :=
  World storage VNull [].

(** The outside world: how the network answers a request, given everything
    that happened before it, and [import.meta.env.VITE_BACKEND_URL], a string
    or [undefined]. *)
Class Environment := {
  network : list event -> request -> fetch_result;
  VITE_BACKEND_URL : option string
}.

Context {env : Environment}.

Definition BACKEND_URL : string :=
  match VITE_BACKEND_URL with
  | Some s => if String.eqb s "" then "http://localhost:3000" else s
  | None => "http://localhost:3000"
  end.

(** ** The monad of component code *)

Definition M (A : Type) : Type := world -> completion A * world.

#[local] Instance M_ret : MRet M := fun A a w => (Normal a, w).

#[local] Instance M_bind : MBind M := fun A B f m w =>
  match m w with
  | (Normal a, w') => f a w'
  | (Throw e, w') => (Throw e, w')
  end.

(** A synchronous expression that may throw. *)
Definition eval {A} (c : completion A) : M A := fun w => (c, w).

(** [try { body } catch (e) { handler }] *)
Definition try_catch {A} (body : M A) (handler : js_error -> M A) : M A :=
  fun w =>
    match body w with
    | (Normal a, w') => (Normal a, w')
    | (Throw e, w') => handler e w'
    end.

Definition emit (e : event) : M unit :=
  fun w => (Normal tt, World (localStorage w) (user w) (trace w ++ [e])).

(** [await fetch(...)] *)
Definition fetch (req : request) : M response :=
  fun w =>
    let out := network (trace w) req in
    let w' := World (localStorage w) (user w) (trace w ++ [EFetch req out]) in
    match out with
    | Resolved res => (Normal res, w')
    | Rejected e => (Throw e, w')
    end.

(** [await res.json()] *)
Definition json (res : response) : M value := eval (json_body res).

(** [await res.json().catch(() => ({}))] *)
Definition json_or_empty (res : response) : M value :=
  try_catch (json res) (fun _ => mret (VObj [])).

Definition getItem (key : string) : M (option string) :=
  fun w => (Normal (localStorage w !! key), w).

Definition store (key s : string) : M unit :=
  fun w => (Normal tt,
            World (<[key := s]> (localStorage w)) (user w) (trace w ++ [ESetItem key s])).

(** [localStorage.setItem(key, v)] converts [v] to a string first. *)
Definition setItem (key : string) (v : value) : M unit :=
  s ← eval (ToString v);
  store key s.

Definition removeItem (key : string) : M unit :=
  fun w => (Normal tt,
            World (delete key (localStorage w)) (user w) (trace w ++ [ERemoveItem key])).

Definition setUser (u : value) : M unit :=
  fun w => (Normal tt, World (localStorage w) u (trace w)).

Definition navigate (to : string) : M unit := emit (ENavigate to).

Definition console_error (label : string) (detail : logged) : M unit :=
  emit (EConsoleError label detail).

(** ** The component *)

Definition whoami_request (token : string) : request :=
  Request (BACKEND_URL +:+ "/user/me") "GET"
          [("Content-Type", "application/json");
           ("Authorization", "Bearer " +:+ token)]
          None.

Definition login_request (username password : value) : request :=
  Request (BACKEND_URL +:+ "/login") "POST"
          [("Content-Type", "application/json")]
          (Some (VObj [("username", username); ("password", password)])).

Definition register_request (userData : value) : request :=
  Request (BACKEND_URL +:+ "/register") "POST"
          [("Content-Type", "application/json")]
          (Some userData).

(** [fetchUserData], closed over the [token] read by the mount effect. *)
Definition fetchUserData (token : string) : M unit :=
  try_catch
    (res ← fetch (whoami_request token);
     if negb (ok res) then
       err ← json_or_empty res;
       msg ← eval (Get_optional err "message");
       console_error "Failed to fetch user data"
                     (LoggedValue (js_or msg (VStr (statusText res))));;
       removeItem "token";;
       setUser VNull
     else
       data ← json res;
       u ← eval (Get data "user");
       setUser (js_or u VNull))
    (fun e =>
       console_error "Error fetching user data:" (LoggedError e);;
       setUser VNull).

(** The body of [useEffect(..., [])]: the work done once, at mount.  [!token]
    holds for a missing key and for the empty string. *)
Definition initialize : M unit :=
  token ← getItem "token";
  match token with
  | None => setUser VNull
  | Some t =>
      if String.eqb t "" then setUser VNull
      else fetchUserData t
  end.

Definition logout : M unit :=
  removeItem "token";;
  setUser VNull;;
  navigate "/".

Definition login (username password : value) : M value :=
  try_catch
    (res ← fetch (login_request username password);
     if negb (ok res) then
       data ← json_or_empty res;
       msg ← eval (Get_optional data "message");
       mret (js_or msg (VStr "login failed"))
     else
       data ← json res;
       token ← (if truthy data then eval (Get data "token") else mret VUndefined);
       if negb (truthy data) || negb (truthy token) then
         mret (VStr "no token")
       else
         setItem "token" token;;
         try_catch
           (bearer ← eval (ToString token);
            profileRes ← fetch (whoami_request bearer);
            if ok profileRes then
              profileData ← json profileRes;
              u ← eval (Get profileData "user");
              setUser (js_or u VNull)
            else
              setUser VNull)
           (fun _ => setUser VNull);;
         navigate "/profile";;
         mret (VStr ""))
    (fun e =>
       console_error "Login error:" (LoggedError e);;
       mret (VStr "unable to login")).

Definition register (userData : value) : M value :=
  try_catch
    (res ← fetch (register_request userData);
     data ← json_or_empty res;
     if negb (ok res) then
       msg ← eval (Get_optional data "message");
       mret (js_or msg (VStr "registration failed"))
     else
       navigate "/success";;
       mret (VStr ""))
    (fun e =>
       console_error "Register error:" (LoggedError e);;
       mret (VStr "unable to register")).

(** ** Vocabulary of the statements *)

(** The field [key] of a parsed body, [undefined] when the body has no such
    field (or is no object at all). *)
Definition field (data : value) (key : string) : value :=
  match data with
  | VObj props => own_property props key
  | _ => VUndefined
  end.

(** Final state and returned completion of a run. *)
Definition exec {A} (m : M A) (w : world) : world := (m w).2.
Definition outcome {A} (m : M A) (w : world) : completion A := (m w).1.

(** The who-am-I request finished with a non-success HTTP status. *)
Definition http_failed (out : fetch_result) : bool :=
  match out with
  | Resolved res => negb (ok res)
  | Rejected _ => false
  end.

(** The who-am-I exchange failed below HTTP: [fetch] rejected, or a success
    response could not be read as JSON. *)
Definition transport_failed (out : fetch_result) : bool :=
  match out with
  | Rejected _ => true
  | Resolved res =>
      ok res && match json_body res with Throw _ => true | Normal _ => false end
  end.

(** The user a who-am-I exchange yields for the session: the [user] field of
    a success body when it is truthy, [null] in every other case. *)
Definition profile_of (out : fetch_result) : value :=
  match out with
  | Rejected _ => VNull
  | Resolved res =>
      if ok res then
        match json_body res with
        | Normal data => if nullish data then VNull else js_or (field data "user") VNull
        | Throw _ => VNull
        end
      else VNull
  end.

(** The error message a non-success response carries: the [message] field of
    its body, [undefined] when the body cannot be parsed. *)
Definition server_message (res : response) : value :=
  match json_body res with
  | Normal data => field data "message"
  | Throw _ => VUndefined
  end.

(** ** Sequences of operations *)

Inductive operation :=
| OpInitialize
| OpLogin (username password : value)
| OpLogout
| OpRegister (userData : value).

Definition perform (op : operation) (w : world) : world :=
  match op with
  | OpInitialize => exec initialize w
  | OpLogin username password => exec (login username password) w
  | OpLogout => exec logout w
  | OpRegister userData => exec (register userData) w
  end.

(** Operations invoked one after the other, each one only after the one
    before has finished (all its requests settled).  Calls that overlap, as
    when the user acts while the mount effect's request is still pending,
    are not runs of this kind; see [initialize_start] below. *)
Definition run (ops : list operation) (w : world) : world :=
  foldl (fun w op => perform op w) w ops.

(** The who-am-I exchanges of a trace, oldest first. *)
Definition is_whoami (req : request) : bool :=
  String.eqb (url req) (BACKEND_URL +:+ "/user/me").

Definition exchange (ev : event) : option (request * fetch_result) :=
  match ev with
  | EFetch req out => if is_whoami req then Some (req, out) else None
  | _ => None
  end.

Definition last_whoami (tr : list event) : option (request * fetch_result) :=
  last (omap exchange tr).

(** The request presents [t] as its bearer token. *)
Definition carries (req : request) (t : string) : Prop :=
  ("Authorization", "Bearer " +:+ t) ∈ headers req.

#[local] Instance carries_dec req t : Decision (carries req t) :=
  list_elem_of_dec _ _.

(** The answers the server gave about one token [t], oldest first. *)
Definition verdict (t : string) (ev : event) : option fetch_result :=
  match ev with
  | EFetch req out =>
      if is_whoami req && bool_decide (carries req t) then Some out else None
  | _ => None
  end.

(** The server's latest word on [t] was a refusal. *)
Definition rejected (tr : list event) (t : string) : Prop :=
  exists res, last (omap (verdict t) tr) = Some (Resolved res) /\ ok res = false.

(** The checks a server makes for the session manager: the credential check
    of a login request and the token check of a who-am-I request. *)
Definition is_login (req : request) : bool :=
  String.eqb (url req) (BACKEND_URL +:+ "/login").

Definition check (ev : event) : option fetch_result :=
  match ev with
  | EFetch req out => if is_whoami req || is_login req then Some out else None
  | _ => None
  end.

(** The most recent of those checks was answered with a success status. *)
Definition last_check_succeeded (tr : list event) : Prop :=
  exists res, last (omap check tr) = Some (Resolved res) /\ ok res = true.

Definition is_string (v : value) : bool :=
  match v with
  | VStr _ => true
  | _ => false
  end.

(** The session is backed by the stored token: the latest who-am-I exchange
    carried the token now in storage, succeeded, and its body's [user] field
    is the session's user. *)
Definition validated (w : world) : Prop :=
  exists t req res data,
    localStorage w !! "token" = Some t /\
    last_whoami (trace w) = Some (req, Resolved res) /\
    method req = "GET" /\
    carries req t /\
    ok res = true /\
    json_body res = Normal data /\
    field data "user" = user w.

Definition session_invariant (w : world) : Prop :=
  user w <> VNull -> validated w.

(** ** Vocabulary of the further properties *)

(** A hard reload of the page: storage persists, the component mounts again
    and its state cell starts over at [useState(null)]. *)
Definition reload (w : world) : world :=
  World (localStorage w) VNull (trace w).

(** The requests among a list of events, oldest first. *)
Definition request_of (ev : event) : option request :=
  match ev with
  | EFetch req _ => Some req
  | _ => None
  end.

Definition requests (evs : list event) : list request := omap request_of evs.

(** The [fetch] calls written in the body of each operation. *)
Definition budget (op : operation) : nat :=
  match op with
  | OpInitialize => 1
  | OpLogin _ _ => 2
  | OpLogout => 0
  | OpRegister _ => 1
  end.

(** The requests, routes and console labels that occur in the component. *)
Definition known_request (req : request) : Prop :=
  (exists t, req = whoami_request t) \/
  (exists username password, req = login_request username password) \/
  (exists userData, req = register_request userData).

Definition routes : list string := ["/"; "/profile"; "/success"].

Definition diagnostics : list string :=
  ["Failed to fetch user data"; "Error fetching user data:";
   "Login error:"; "Register error:"].

Definition expected (ev : event) : Prop :=
  match ev with
  | EFetch req _ => known_request req
  | ESetItem key _ => key = "token"
  | ERemoveItem key => key = "token"
  | ENavigate to => to ∈ routes
  | EConsoleError label _ => label ∈ diagnostics
  end.

(** The token in storage after the storage events of [evs], when it was
    [tok] before them. *)
Definition token_step (tok : option string) (ev : event) : option string :=
  match ev with
  | ESetItem key val => if String.eqb key "token" then Some val else tok
  | ERemoveItem key => if String.eqb key "token" then None else tok
  | _ => tok
  end.

Definition token_through (tok : option string) (evs : list event) : option string :=
  foldl token_step tok evs.

(** ** The mount effect, in its two halves

    [fetchUserData()] is called without [await] (line 54): the effect
    returns once the who-am-I request is out, and the rest of
    [fetchUserData] runs when the request has settled, after whatever
    happened in between. *)

(** The synchronous first part of [fetch]: the request goes out; what it
    will settle to is recorded with it. *)
Definition send (req : request) : M fetch_result :=
  fun w =>
    let out := network (trace w) req in
    (Normal out, World (localStorage w) (user w) (trace w ++ [EFetch req out])).

(** [await] on a promise that has settled to [out]. *)
Definition settle (out : fetch_result) : M response :=
  eval (match out with
        | Resolved res => Normal res
        | Rejected e => Throw e
        end).

(** Lines 23-36: the effect up to the first [await].  Returns what the
    request it sent, if any, will settle to. *)
Definition initialize_start : M (option fetch_result) :=
  token ← getItem "token";
  match token with
  | None => setUser VNull;; mret None
  | Some t =>
      if String.eqb t "" then setUser VNull;; mret None
      else out ← send (whoami_request t); mret (Some out)
  end.

(** Lines 38-51: [fetchUserData] from its first [await] on. *)
Definition fetchUserData_resume (out : fetch_result) : M unit :=
  try_catch
    (res ← settle out;
     if negb (ok res) then
       err ← json_or_empty res;
       msg ← eval (Get_optional err "message");
       console_error "Failed to fetch user data"
                     (LoggedValue (js_or msg (VStr (statusText res))));;
       removeItem "token";;
       setUser VNull
     else
       data ← json res;
       u ← eval (Get data "user");
       setUser (js_or u VNull))
    (fun e =>
       console_error "Error fetching user data:" (LoggedError e);;
       setUser VNull).

Definition initialize_resume (pending : option fetch_result) : M unit :=
  match pending with
  | None => mret tt
  | Some out => fetchUserData_resume out
  end.

(** Every who-am-I request among [evs] presents the token that is in
    storage at the moment it is sent, when storage held [tok] before [evs]. *)
Definition presents_stored_token (tok : option string) (ev : event) : Prop :=
  match ev with
  | EFetch req _ => is_whoami req = true -> exists t, tok = Some t /\ carries req t
  | _ => True
  end.

Fixpoint bearers_follow_storage (tok : option string) (evs : list event) : Prop :=
  match evs with
  | [] => True
  | ev :: rest =>
      presents_stored_token tok ev /\ bearers_follow_storage (token_step tok ev) rest
  end.

(** The session is [null] or a truthy value, never a falsy non-null one. *)
Definition well_formed_session (u : value) : Prop :=
  u = VNull \/ truthy u = true.

End AuthContext.

(** ** Scenarios

    Concrete servers to run the component against, with integers for
    numbers and no [VITE_BACKEND_URL] set. *)

Module Scenario.

#[export] Instance integers : Numbers := {|
  number := Z;
  number_truthy n := negb (n =? 0)%Z;
  number_to_string := pretty
|}.

(** The user record [{id: 1}]. *)
Definition user1 : value := VObj [("id", VNum 1%Z)].

Definition respond (status_ok : bool) (statusText : string)
    (props : list (string * value)) : fetch_result :=
  Resolved (Response status_ok statusText (Normal (VObj props))).

Definition is_post (req : request) : bool := String.eqb (method req) "POST".

Definition password_of (req : request) : value :=
  match body req with
  | Some (VObj props) => own_property props "password"
  | _ => VUndefined
  end.

(** Accepts the password "good" with token "abc", refuses any other with
    401, and knows the bearer of a token as user 1. *)
Definition server : Environment := {|
  network _ req :=
    if is_post req then
      match password_of req with
      | VStr "good" => respond true "OK" [("token", VStr "abc")]
      | _ => respond false "Unauthorized" [("message", VStr "bad creds")]
      end
    else respond true "OK" [("user", user1)];
  VITE_BACKEND_URL := None
|}.

(** Hands out a token on login but refuses it on who-am-I. *)
Definition forgetful_server : Environment := {|
  network _ req :=
    if is_post req then respond true "OK" [("token", VStr "abc")]
    else respond false "Unauthorized" [];
  VITE_BACKEND_URL := None
|}.

(** Accepts a registration with 201 when it names a user, and refuses it
    with a bare 400 otherwise; answers who-am-I with an empty object. *)
Definition registrar : Environment := {|
  network _ req :=
    if is_post req then
      match body req with
      | Some (VObj (_ :: _)) => respond true "Created" []
      | _ => respond false "Bad Request" []
      end
    else respond true "OK" [];
  VITE_BACKEND_URL := None
|}.

(** Unreachable: every fetch is rejected. *)
Definition offline : Environment := {|
  network _ _ := Rejected (TypeError "Failed to fetch");
  VITE_BACKEND_URL := None
|}.

(** A freshly mounted component with token [t] in storage. *)
Definition stored (t : string) : world := mount {["token" := t]}.

Definition credentials (password : string) : operation :=
  OpLogin (VStr "u") (VStr password).

(** Answers every request with a success status and the body [null]. *)
Definition null_server : Environment := {|
  network _ _ := Resolved (Response true "OK" (Normal VNull));
  VITE_BACKEND_URL := None
|}.

(** An object with a [toString] property of its own, which no conversion to
    a string survives. *)
Definition odd_token : value := VObj [("toString", VNum 1%Z)].

(** Hands out [odd_token] as the token. *)
Definition careless_server : Environment := {|
  network _ _ := respond true "OK" [("token", odd_token)];
  VITE_BACKEND_URL := None
|}.

(** A freshly mounted component on a page that also keeps a theme in
    storage. *)
Definition themed : world := mount (<["theme" := "dark"]> {["token" := "abc"]}).

(** Refuses every registration with 409 and a reason. *)
Definition refusing_server : Environment := {|
  network _ _ := respond false "Conflict" [("message", VStr "utorid taken")];
  VITE_BACKEND_URL := None
|}.

(** The object [{code: 7}]. *)
Definition error_object : value := VObj [("code", VNum 7%Z)].

(** Refuses every login with 400 and a structured error for its message. *)
Definition structured_server : Environment := {|
  network _ _ := respond false "Bad Request" [("message", error_object)];
  VITE_BACKEND_URL := None
|}.

(** Hands out the token "xyz" on login, but knows only the bearer of "abc",
    as user 1, and refuses every other token. *)
Definition forgetful_of_new_tokens : Environment := {|
  network _ req :=
    if is_post req then respond true "OK" [("token", VStr "xyz")]
    else if bool_decide (("Authorization", "Bearer abc") ∈ headers req)
         then respond true "OK" [("user", user1)]
         else respond false "Unauthorized" [];
  VITE_BACKEND_URL := None
|}.

(** A login made while the mount effect's request for the stored token
    "abc" is still pending: the effect starts, login runs from start to
    finish, and only then does the rest of [fetchUserData] run. *)
Definition overlapped : world :=
  let '(pending, w1) := initialize_start (env := forgetful_of_new_tokens) (stored "abc") in
  let w2 := exec (login (env := forgetful_of_new_tokens) (VStr "u") (VStr "good")) w1 in
  match pending with
  | Normal p => exec (initialize_resume p) w2
  | Throw _ => w2
  end.

End Scenario.

(** * Properties *)

Section Properties.

Context {numbers : Numbers} {env : Environment}.

(** ** Basic facts about values *)

Lemma Get_optional_field data key : Get_optional data key = Normal (field data key).
Proof. by destruct data. Qed.

Lemma Get_field data key : nullish data = false -> Get data key = Normal (field data key).
Proof. by destruct data. Qed.

Lemma field_truthy_object data key :
  truthy (field data key) = true -> truthy data = true /\ nullish data = false.
Proof. by destruct data. Qed.

Lemma js_or_truthy a b : truthy b = true -> truthy (js_or a b) = true.
Proof. unfold js_or. by destruct (truthy a) eqn:Ha. Qed.

Lemma js_or_null v : js_or v VNull <> VNull -> js_or v VNull = v /\ truthy v = true.
Proof. unfold js_or. by destruct (truthy v). Qed.

(** Unfolds the monadic plumbing of a run. *)
Ltac unfold_M :=
  unfold exec, outcome, try_catch, json_or_empty, json, navigate, console_error,
    emit, setUser, removeItem, setItem, store, getItem, fetch, eval,
    mbind, M_bind, mret, M_ret in *; simpl in *.

Ltac trace_assoc := simpl; rewrite <- ?app_assoc; simpl.

(** Closes the propositional remainder once a run has been evaluated. *)
Ltac close_cases :=
  repeat split; intros;
  repeat match goal with
         | H : _ /\ _ |- _ => destruct H
         | H : _ \/ _ |- _ => destruct H
         end;
  try done; try congruence; try (by repeat eexists).

(** ** Logout *)

Lemma logout_run w :
  logout w = (Normal tt,
              World (delete "token" (localStorage w)) VNull
                    (trace w ++ [ERemoveItem "token"; ENavigate "/"])).
Proof. unfold logout. unfold_M. by trace_assoc. Qed.

(** ** The mount effect *)

Lemma initialize_no_token w :
  localStorage w !! "token" = None ->
  initialize w = (Normal tt, World (localStorage w) VNull (trace w)).
Proof. intros Hls. unfold initialize. unfold_M. by rewrite Hls. Qed.

Lemma initialize_empty_token w :
  localStorage w !! "token" = Some "" ->
  initialize w = (Normal tt, World (localStorage w) VNull (trace w)).
Proof. intros Hls. unfold initialize. unfold_M. by rewrite Hls. Qed.

Lemma initialize_token w t :
  localStorage w !! "token" = Some t -> String.eqb t "" = false ->
  initialize w = fetchUserData t w.
Proof. intros Hls Ht. unfold initialize. unfold_M. by rewrite Hls, Ht. Qed.

(** What [fetchUserData] does, by outcome of the who-am-I exchange. *)
Lemma fetchUserData_rejected w t e :
  network (trace w) (whoami_request t) = Rejected e ->
  fetchUserData t w =
    (Normal tt,
     World (localStorage w) VNull
           (trace w ++ [EFetch (whoami_request t) (Rejected e);
                        EConsoleError "Error fetching user data:" (LoggedError e)])).
Proof. intros Hnet. unfold fetchUserData. unfold_M. rewrite Hnet. by trace_assoc. Qed.

Lemma fetchUserData_not_ok w t res :
  network (trace w) (whoami_request t) = Resolved res -> ok res = false ->
  fetchUserData t w =
    (Normal tt,
     World (delete "token" (localStorage w)) VNull
           (trace w ++ [EFetch (whoami_request t) (Resolved res);
                        EConsoleError "Failed to fetch user data"
                          (LoggedValue (js_or (server_message res) (VStr (statusText res))));
                        ERemoveItem "token"])).
Proof.
  intros Hnet Hok. unfold fetchUserData, server_message. unfold_M.
  rewrite Hnet, Hok. simpl.
  destruct (json_body res) as [data|e]; simpl; rewrite ?Get_optional_field; simpl;
    by trace_assoc.
Qed.

Lemma fetchUserData_unreadable w t res e :
  network (trace w) (whoami_request t) = Resolved res -> ok res = true ->
  json_body res = Throw e ->
  fetchUserData t w =
    (Normal tt,
     World (localStorage w) VNull
           (trace w ++ [EFetch (whoami_request t) (Resolved res);
                        EConsoleError "Error fetching user data:" (LoggedError e)])).
Proof.
  intros Hnet Hok Hbody. unfold fetchUserData. unfold_M.
  rewrite Hnet, Hok, Hbody. simpl. by trace_assoc.
Qed.

Lemma fetchUserData_nullish_body w t res data :
  network (trace w) (whoami_request t) = Resolved res -> ok res = true ->
  json_body res = Normal data -> nullish data = true ->
  exists e,
    fetchUserData t w =
      (Normal tt,
       World (localStorage w) VNull
             (trace w ++ [EFetch (whoami_request t) (Resolved res);
                          EConsoleError "Error fetching user data:" (LoggedError e)])).
Proof.
  intros Hnet Hok Hbody Hnull. unfold fetchUserData. unfold_M.
  rewrite Hnet, Hok, Hbody. simpl.
  destruct data; try discriminate; simpl; eexists; by trace_assoc.
Qed.

Lemma fetchUserData_body w t res data :
  network (trace w) (whoami_request t) = Resolved res -> ok res = true ->
  json_body res = Normal data -> nullish data = false ->
  fetchUserData t w =
    (Normal tt,
     World (localStorage w) (js_or (field data "user") VNull)
           (trace w ++ [EFetch (whoami_request t) (Resolved res)])).
Proof.
  intros Hnet Hok Hbody Hnull. unfold fetchUserData. unfold_M.
  rewrite Hnet, Hok, Hbody. simpl. by rewrite (Get_field _ _ Hnull).
Qed.

(** ** Login *)

Lemma truthy_not_nullish v : truthy v = true -> nullish v = false.
Proof. by destruct v. Qed.

Lemma login_rejected w username password e :
  network (trace w) (login_request username password) = Rejected e ->
  login username password w =
    (Normal (VStr "unable to login"),
     World (localStorage w) (user w)
           (trace w ++ [EFetch (login_request username password) (Rejected e);
                        EConsoleError "Login error:" (LoggedError e)])).
Proof. intros Hnet. unfold login. unfold_M. rewrite Hnet. by trace_assoc. Qed.

Lemma login_not_ok w username password res :
  network (trace w) (login_request username password) = Resolved res ->
  ok res = false ->
  login username password w =
    (Normal (js_or (server_message res) (VStr "login failed")),
     World (localStorage w) (user w)
           (trace w ++ [EFetch (login_request username password) (Resolved res)])).
Proof.
  intros Hnet Hok. unfold login, server_message. unfold_M.
  rewrite Hnet, Hok. simpl.
  by destruct (json_body res) as [data|e]; simpl; rewrite ?Get_optional_field.
Qed.

Lemma login_unreadable w username password res e :
  network (trace w) (login_request username password) = Resolved res ->
  ok res = true -> json_body res = Throw e ->
  login username password w =
    (Normal (VStr "unable to login"),
     World (localStorage w) (user w)
           (trace w ++ [EFetch (login_request username password) (Resolved res);
                        EConsoleError "Login error:" (LoggedError e)])).
Proof.
  intros Hnet Hok Hbody. unfold login. unfold_M.
  rewrite Hnet, Hok, Hbody. by trace_assoc.
Qed.

Lemma login_no_token w username password res data :
  network (trace w) (login_request username password) = Resolved res ->
  ok res = true -> json_body res = Normal data ->
  truthy (field data "token") = false ->
  login username password w =
    (Normal (VStr "no token"),
     World (localStorage w) (user w)
           (trace w ++ [EFetch (login_request username password) (Resolved res)])).
Proof.
  intros Hnet Hok Hbody Htok. unfold login. unfold_M.
  rewrite Hnet, Hok, Hbody. simpl.
  destruct (truthy data) eqn:Hdata; simpl; [|done].
  rewrite (Get_field _ _ (truthy_not_nullish _ Hdata)). simpl.
  by rewrite Htok.
Qed.

Lemma login_token_unprintable w username password res data e :
  network (trace w) (login_request username password) = Resolved res ->
  ok res = true -> json_body res = Normal data ->
  truthy (field data "token") = true ->
  ToString (field data "token") = Throw e ->
  login username password w =
    (Normal (VStr "unable to login"),
     World (localStorage w) (user w)
           (trace w ++ [EFetch (login_request username password) (Resolved res);
                        EConsoleError "Login error:" (LoggedError e)])).
Proof.
  intros Hnet Hok Hbody Htok Hstr. unfold login. unfold_M.
  rewrite Hnet, Hok, Hbody. simpl.
  destruct (field_truthy_object _ _ Htok) as [Hdata Hnull].
  rewrite Hdata, (Get_field _ _ Hnull). simpl.
  rewrite Htok, Hstr. by trace_assoc.
Qed.

(** The successful path: the token is written, the profile is fetched with
    it, and whatever that second exchange yields becomes the session. *)
Lemma login_token w username password res data t :
  network (trace w) (login_request username password) = Resolved res ->
  ok res = true -> json_body res = Normal data ->
  truthy (field data "token") = true ->
  ToString (field data "token") = Normal t ->
  let sent := trace w ++ [EFetch (login_request username password) (Resolved res);
                          ESetItem "token" t] in
  let out := network sent (whoami_request t) in
  login username password w =
    (Normal (VStr ""),
     World (<["token" := t]> (localStorage w)) (profile_of out)
           (sent ++ [EFetch (whoami_request t) out; ENavigate "/profile"])).
Proof.
  intros Hnet Hok Hbody Htok Hstr sent out. unfold login. unfold_M.
  rewrite Hnet, Hok, Hbody. simpl.
  destruct (field_truthy_object _ _ Htok) as [Hdata Hnull].
  rewrite Hdata, (Get_field _ _ Hnull). simpl.
  rewrite Htok, Hstr. simpl. rewrite <- app_assoc. simpl.
  fold sent. fold out. unfold profile_of.
  destruct out as [pres|pe]; simpl; [|by trace_assoc].
  destruct (ok pres); simpl; [|by trace_assoc].
  destruct (json_body pres) as [pdata|pe]; simpl; [|by trace_assoc].
  destruct (nullish pdata) eqn:Hp.
  - destruct pdata; try discriminate; by trace_assoc.
  - rewrite (Get_field _ _ Hp). by trace_assoc.
Qed.

(** ** Register *)

Lemma register_rejected w userData e :
  network (trace w) (register_request userData) = Rejected e ->
  register userData w =
    (Normal (VStr "unable to register"),
     World (localStorage w) (user w)
           (trace w ++ [EFetch (register_request userData) (Rejected e);
                        EConsoleError "Register error:" (LoggedError e)])).
Proof. intros Hnet. unfold register. unfold_M. rewrite Hnet. by trace_assoc. Qed.

Lemma register_not_ok w userData res :
  network (trace w) (register_request userData) = Resolved res ->
  ok res = false ->
  register userData w =
    (Normal (js_or (server_message res) (VStr "registration failed")),
     World (localStorage w) (user w)
           (trace w ++ [EFetch (register_request userData) (Resolved res)])).
Proof.
  intros Hnet Hok. unfold register, server_message. unfold_M. rewrite Hnet. simpl.
  by destruct (json_body res) as [data|e]; simpl; rewrite Hok; simpl;
    rewrite ?Get_optional_field.
Qed.

Lemma register_ok w userData res :
  network (trace w) (register_request userData) = Resolved res ->
  ok res = true ->
  register userData w =
    (Normal (VStr ""),
     World (localStorage w) (user w)
           (trace w ++ [EFetch (register_request userData) (Resolved res);
                        ENavigate "/success"])).
Proof.
  intros Hnet Hok. unfold register. unfold_M. rewrite Hnet. simpl.
  by destruct (json_body res) as [data|e]; simpl; rewrite Hok; trace_assoc.
Qed.

(** ** Who-am-I exchanges in a trace *)

Lemma eqb_append_prefix (a b c : string) :
  String.eqb (a +:+ b) (a +:+ c) = String.eqb b c.
Proof. induction a as [|ch a IH]; simpl; [done|]. by rewrite Ascii.eqb_refl. Qed.

Lemma is_whoami_whoami t : is_whoami (whoami_request t) = true.
Proof. apply String.eqb_refl. Qed.

Lemma is_whoami_login username password :
  is_whoami (login_request username password) = false.
Proof. unfold is_whoami. simpl. by rewrite eqb_append_prefix. Qed.

Lemma is_whoami_register userData : is_whoami (register_request userData) = false.
Proof. unfold is_whoami. simpl. by rewrite eqb_append_prefix. Qed.

Lemma last_whoami_app tr evs :
  last_whoami (tr ++ evs) =
    match last_whoami evs with Some x => Some x | None => last_whoami tr end.
Proof. unfold last_whoami. by rewrite omap_app, last_app. Qed.

Lemma last_whoami_cons ev evs :
  last_whoami (ev :: evs) =
    match last_whoami evs with Some x => Some x | None => exchange ev end.
Proof.
  change (ev :: evs) with ([ev] ++ evs). rewrite last_whoami_app.
  destruct (last_whoami evs); [done|].
  unfold last_whoami. simpl. by destruct (exchange ev).
Qed.

Lemma last_whoami_nil : last_whoami [] = None.
Proof. done. Qed.

#[local] Arguments is_whoami : simpl never.

(** Evaluates [last_whoami] on the events one operation appends. *)
Ltac eval_last_whoami :=
  rewrite ?last_whoami_app, ?last_whoami_cons, ?last_whoami_nil; unfold exchange;
  rewrite ?is_whoami_login, ?is_whoami_register, ?is_whoami_whoami.

(** ** The session invariant *)

(** A step that leaves storage and session alone and talks to no who-am-I
    endpoint keeps the invariant. *)
Lemma session_invariant_frame w w' evs :
  localStorage w' = localStorage w -> user w' = user w ->
  trace w' = trace w ++ evs -> last_whoami evs = None ->
  session_invariant w -> session_invariant w'.
Proof.
  intros Hls Hu Htr Hevs Hinv Hnn. rewrite Hu in Hnn.
  destruct (Hinv Hnn) as (t & req & res & data & Ht & Hlast & Hrest).
  exists t, req, res, data. rewrite Hls, Hu, Htr, last_whoami_app, Hevs. done.
Qed.

Lemma session_invariant_append {A} (r : completion A) w evs :
  last_whoami evs = None -> session_invariant w ->
  session_invariant (r, World (localStorage w) (user w) (trace w ++ evs)).2.
Proof. intros Hevs Hinv. by apply (session_invariant_frame w _ evs). Qed.

Ltac frame_step := apply session_invariant_append; [by eval_last_whoami | done].

Lemma carries_whoami t : carries (whoami_request t) t.
Proof. unfold carries. simpl. apply list_elem_of_further, list_elem_of_here. Qed.

Lemma session_invariant_absent w : user w = VNull -> session_invariant w.
Proof. by intros Hu Hnn. Qed.

Lemma profile_of_validates out u :
  profile_of out = u -> u <> VNull ->
  exists res data,
    out = Resolved res /\ ok res = true /\ json_body res = Normal data /\
    field data "user" = u.
Proof.
  intros <- Hnn. unfold profile_of in *. destruct out as [res|e]; [|done].
  destruct (ok res) eqn:Hok; [|done].
  destruct (json_body res) as [data|e] eqn:Hbody; [|done].
  destruct (nullish data); [done|].
  exists res, data. by destruct (js_or_null _ Hnn) as [-> _].
Qed.

Lemma logout_preserves w : session_invariant (exec logout w).
Proof. unfold exec. rewrite logout_run. by apply session_invariant_absent. Qed.

Lemma register_preserves userData w :
  session_invariant w -> session_invariant (exec (register userData) w).
Proof.
  intros Hinv. unfold exec.
  destruct (network (trace w) (register_request userData)) as [res|e] eqn:Hnet;
    [destruct (ok res) eqn:Hok|].
  - rewrite (register_ok _ _ _ Hnet Hok).
    frame_step.
  - rewrite (register_not_ok _ _ _ Hnet Hok).
    frame_step.
  - rewrite (register_rejected _ _ _ Hnet).
    frame_step.
Qed.

Lemma initialize_preserves w : session_invariant (exec initialize w).
Proof.
  unfold exec.
  destruct (localStorage w !! "token") as [t|] eqn:Hls;
    [|rewrite (initialize_no_token _ Hls); by apply session_invariant_absent].
  destruct (String.eqb t "") eqn:Ht.
  { apply String.eqb_eq in Ht as ->.
    rewrite (initialize_empty_token _ Hls). by apply session_invariant_absent. }
  rewrite (initialize_token _ _ Hls Ht).
  destruct (network (trace w) (whoami_request t)) as [res|e] eqn:Hnet;
    [|rewrite (fetchUserData_rejected _ _ _ Hnet); by apply session_invariant_absent].
  destruct (ok res) eqn:Hok;
    [|rewrite (fetchUserData_not_ok _ _ _ Hnet Hok); by apply session_invariant_absent].
  destruct (json_body res) as [data|e] eqn:Hbody;
    [|rewrite (fetchUserData_unreadable _ _ _ _ Hnet Hok Hbody);
      by apply session_invariant_absent].
  destruct (nullish data) eqn:Hnull.
  { destruct (fetchUserData_nullish_body _ _ _ _ Hnet Hok Hbody Hnull) as [e ->].
    by apply session_invariant_absent. }
  rewrite (fetchUserData_body _ _ _ _ Hnet Hok Hbody Hnull).
  intros Hnn. simpl in *. destruct (js_or_null _ Hnn) as [Hu _].
  exists t, (whoami_request t), res, data. simpl. eval_last_whoami.
  split_and!; [done..|apply carries_whoami|done|done|done].
Qed.

Lemma login_preserves username password w :
  session_invariant w -> session_invariant (exec (login username password) w).
Proof.
  intros Hinv. unfold exec.
  destruct (network (trace w) (login_request username password)) as [res|e] eqn:Hnet;
    [|rewrite (login_rejected _ _ _ _ Hnet); frame_step].
  destruct (ok res) eqn:Hok;
    [|rewrite (login_not_ok _ _ _ _ Hnet Hok); frame_step].
  destruct (json_body res) as [data|e] eqn:Hbody;
    [|rewrite (login_unreadable _ _ _ _ _ Hnet Hok Hbody);
      frame_step].
  destruct (truthy (field data "token")) eqn:Htok;
    [|rewrite (login_no_token _ _ _ _ _ Hnet Hok Hbody Htok);
      frame_step].
  destruct (ToString (field data "token")) as [t|e] eqn:Hstr;
    [|rewrite (login_token_unprintable _ _ _ _ _ _ Hnet Hok Hbody Htok Hstr);
      frame_step].
  rewrite (login_token _ _ _ _ _ _ Hnet Hok Hbody Htok Hstr).
  intros Hnn. simpl in *.
  destruct (profile_of_validates _ _ eq_refl Hnn)
    as (pres & pdata & Hout & Hpok & Hpbody & Hpuser).
  exists t, (whoami_request t), pres, pdata. simpl.
  rewrite lookup_insert_eq. eval_last_whoami.
  split_and!; [done|by rewrite Hout|done|apply carries_whoami|done..].
Qed.

Lemma perform_preserves op w : session_invariant w -> session_invariant (perform op w).
Proof.
  destruct op; simpl; intros Hinv.
  - apply initialize_preserves.
  - by apply login_preserves.
  - apply logout_preserves.
  - by apply register_preserves.
Qed.

Lemma run_preserves ops w : session_invariant w -> session_invariant (run ops w).
Proof.
  revert w. induction ops as [|op ops IH]; intros w Hinv; simpl; [done|].
  apply IH. by apply perform_preserves.
Qed.

(** A token whose latest who-am-I exchange succeeded is not a rejected one. *)
Lemma last_whoami_verdict tr req t out :
  last_whoami tr = Some (req, out) -> carries req t ->
  last (omap (verdict t) tr) = Some out.
Proof.
  intros Hlast Hreq. revert Hlast.
  unfold last_whoami. induction tr as [|ev tr IH] using rev_ind; [done|].
  rewrite !omap_app, !last_app. simpl.
  destruct ev as [req' o| | | |]; simpl; try apply IH.
  destruct (is_whoami req') eqn:Hwho; simpl; [|apply IH].
  intros [= -> ->]. by rewrite bool_decide_eq_true_2.
Qed.

(** ** The properties of the session manager *)

(** C1, amended.  Take any sequence of operations in which each one is
    invoked only after the one before has finished, started from an absent
    session.  If the session ends non-absent, it is backed by a token check
    that succeeded: the latest who-am-I exchange (made at mount or inside
    login) was a GET that presented, as its Authorization bearer, the token
    now in storage, it was answered with a success status, and the [user]
    field of its body is the session's user.  In particular the stored token
    is not one the server has, in its latest word on it, rejected.  (A login
    attempt the server refuses is no such check: it leaves an existing
    session alone.  Overlapping calls are outside this statement: see
    [mount_overlapping_login].) *)
Theorem session_backed_by_accepted_token ops w0 :
  user w0 = VNull ->
  user (run ops w0) <> VNull ->
  validated (run ops w0) /\
  forall t, localStorage (run ops w0) !! "token" = Some t ->
            ~ rejected (trace (run ops w0)) t.
Proof.
  intros Habsent Hnn.
  assert (Hval : validated (run ops w0)).
  { by apply run_preserves; [apply session_invariant_absent|]. }
  split; [done|]. intros t Ht (bad & Hlast & Hbad).
  destruct Hval as (t' & req & res & data & Ht' & Hwho & _ & Hreq & Hok & _).
  rewrite Ht in Ht'. injection Ht' as <-.
  rewrite (last_whoami_verdict _ _ _ _ Hwho Hreq) in Hlast.
  injection Hlast as <-. congruence.
Qed.

(** C2.  When the login endpoint answers with success and a token, and the
    who-am-I endpoint then answers with success and a user record, login
    writes the token to storage right after the login response and before
    the who-am-I request goes out, sets the session to that user record,
    navigates to /profile and returns the empty string. *)
Theorem login_success w username password res data t pres pdata :
  network (trace w) (login_request username password) = Resolved res ->
  ok res = true -> json_body res = Normal data ->
  truthy (field data "token") = true ->
  ToString (field data "token") = Normal t ->
  network (trace w ++ [EFetch (login_request username password) (Resolved res);
                       ESetItem "token" t])
          (whoami_request t) = Resolved pres ->
  ok pres = true -> json_body pres = Normal pdata ->
  truthy (field pdata "user") = true ->
  login username password w =
    (Normal (VStr ""),
     World (<["token" := t]> (localStorage w)) (field pdata "user")
           (trace w ++ [EFetch (login_request username password) (Resolved res);
                        ESetItem "token" t;
                        EFetch (whoami_request t) (Resolved pres);
                        ENavigate "/profile"])).
Proof.
  intros Hnet Hok Hbody Htok Hstr Hwho Hpok Hpbody Hpuser.
  rewrite (login_token _ _ _ _ _ _ Hnet Hok Hbody Htok Hstr). simpl.
  rewrite Hwho. simpl. rewrite Hpok, Hpbody.
  destruct (field_truthy_object _ _ Hpuser) as [_ ->].
  unfold js_or. rewrite Hpuser. by rewrite <- app_assoc.
Qed.

(** C3.  At mount with a stored token, the token is removed exactly when the
    who-am-I request was sent and came back with a non-success status; when
    the exchange fails below HTTP (rejected fetch, unreadable success body)
    the token stays; after either kind of failure the session is absent and a
    diagnostic follows the request on the console.  The request is sent
    exactly for the tokens [!token] does not hold of, the non-empty ones. *)
Theorem initialize_token_removal w t :
  localStorage w !! "token" = Some t ->
  let out := network (trace w) (whoami_request t) in
  let w' := exec initialize w in
  (t = "" -> trace w' = trace w) /\
  (t <> "" -> exists rest, trace w' = trace w ++ EFetch (whoami_request t) out :: rest) /\
  (localStorage w' !! "token" = None <-> t <> "" /\ http_failed out = true) /\
  (t <> "" -> transport_failed out = true -> localStorage w' !! "token" = Some t) /\
  (t <> "" -> http_failed out = true \/ transport_failed out = true ->
     user w' = VNull /\
     exists label detail rest,
       trace w' = trace w ++ EFetch (whoami_request t) out
                          :: EConsoleError label detail :: rest).
Proof.
  intros Hls out w'. subst out w'. unfold exec.
  destruct (String.eqb t "") eqn:Ht.
  { apply String.eqb_eq in Ht as ->. rewrite (initialize_empty_token _ Hls).
    simpl. rewrite Hls. close_cases. }
  apply String.eqb_neq in Ht as Hne. rewrite (initialize_token _ _ Hls Ht).
  destruct (network (trace w) (whoami_request t)) as [res|e] eqn:Hnet; simpl;
    [destruct (ok res) eqn:Hok; simpl;
     [destruct (json_body res) as [data|e] eqn:Hbody;
      [destruct (nullish data) eqn:Hnull|]|]|].
  - destruct (fetchUserData_nullish_body _ _ _ _ Hnet Hok Hbody Hnull) as [e ->].
    simpl. rewrite Hls. close_cases.
  - rewrite (fetchUserData_body _ _ _ _ Hnet Hok Hbody Hnull).
    simpl. rewrite Hls. close_cases.
  - rewrite (fetchUserData_unreadable _ _ _ _ Hnet Hok Hbody).
    simpl. rewrite Hls. close_cases.
  - rewrite (fetchUserData_not_ok _ _ _ Hnet Hok).
    simpl. rewrite lookup_delete_eq. close_cases.
  - rewrite (fetchUserData_rejected _ _ _ Hnet).
    simpl. rewrite Hls. close_cases.
Qed.

(** C5.  When the login endpoint has handed out a token but the who-am-I
    exchange that follows fails (rejected fetch, non-success status, or an
    unreadable body), the session is set to absent, and login still
    navigates to /profile and returns the empty string; the token stays
    stored. *)
Theorem login_profile_failure w username password res data t :
  network (trace w) (login_request username password) = Resolved res ->
  ok res = true -> json_body res = Normal data ->
  truthy (field data "token") = true ->
  ToString (field data "token") = Normal t ->
  let sent := trace w ++ [EFetch (login_request username password) (Resolved res);
                          ESetItem "token" t] in
  let out := network sent (whoami_request t) in
  http_failed out = true \/ transport_failed out = true ->
  login username password w =
    (Normal (VStr ""),
     World (<["token" := t]> (localStorage w)) VNull
           (sent ++ [EFetch (whoami_request t) out; ENavigate "/profile"])).
Proof.
  intros Hnet Hok Hbody Htok Hstr sent out Hfail.
  rewrite (login_token _ _ _ _ _ _ Hnet Hok Hbody Htok Hstr).
  fold sent. fold out. do 2 f_equal.
  unfold profile_of, http_failed, transport_failed in *.
  destruct out as [pres|e]; [|done].
  destruct (ok pres); [|done].
  destruct (json_body pres); [|done].
  by destruct Hfail.
Qed.

(** C6.  At mount without a stored token the session ends absent and nothing
    else happens: no request is sent, the trace is as before. *)
Theorem initialize_without_token w :
  localStorage w !! "token" = None ->
  initialize w = (Normal tt, World (localStorage w) VNull (trace w)).
Proof. apply initialize_no_token. Qed.

(** C7.  Logout, from any state: it completes normally, the token is gone
    from storage, the session is absent, and the effects are the removal of
    the token followed by a navigation to /. *)
Theorem logout_always w :
  outcome logout w = Normal tt /\
  localStorage (exec logout w) !! "token" = None /\
  user (exec logout w) = VNull /\
  trace (exec logout w) = trace w ++ [ERemoveItem "token"; ENavigate "/"].
Proof.
  unfold outcome, exec. rewrite logout_run. simpl.
  by rewrite lookup_delete_eq.
Qed.

(** C8.  Register never touches storage or the session.  On a success status
    it navigates to /success and returns the empty string; on a non-success
    status it returns the [message] field of the response body when that is
    truthy and "registration failed" otherwise (no field, a falsy one, an
    unreadable body), and does not navigate; on a rejected fetch it returns
    "unable to register". *)
Theorem register_frame w userData :
  let w' := exec (register userData) w in
  let req := register_request userData in
  localStorage w' = localStorage w /\
  user w' = user w /\
  match network (trace w) req with
  | Resolved res =>
      if ok res then
        outcome (register userData) w = Normal (VStr "") /\
        trace w' = trace w ++ [EFetch req (Resolved res); ENavigate "/success"]
      else
        (truthy (server_message res) = true ->
         outcome (register userData) w = Normal (server_message res)) /\
        (truthy (server_message res) = false ->
         outcome (register userData) w = Normal (VStr "registration failed")) /\
        trace w' = trace w ++ [EFetch req (Resolved res)]
  | Rejected e =>
      outcome (register userData) w = Normal (VStr "unable to register") /\
      trace w' = trace w ++ [EFetch req (Rejected e);
                             EConsoleError "Register error:" (LoggedError e)]
  end.
Proof.
  unfold exec, outcome.
  destruct (network (trace w) (register_request userData)) as [res|e] eqn:Hnet;
    [destruct (ok res) eqn:Hok|].
  - by rewrite (register_ok _ _ _ Hnet Hok).
  - rewrite (register_not_ok _ _ _ Hnet Hok). unfold js_or. simpl.
    split_and!; [done..| | |done]; by intros ->.
  - by rewrite (register_rejected _ _ _ Hnet).
Qed.

(** C10.  When the login request itself fails (the fetch is rejected, or the
    success body cannot be read as JSON), login returns "unable to login";
    storage and session are as before, and the only effects are the request
    and a console diagnostic: no token is written, no navigation happens. *)
Theorem login_transport_failure w username password e :
  let req := login_request username password in
  let out := network (trace w) req in
  out = Rejected e \/
  (exists res, out = Resolved res /\ ok res = true /\ json_body res = Throw e) ->
  login username password w =
    (Normal (VStr "unable to login"),
     World (localStorage w) (user w)
           (trace w ++ [EFetch req out; EConsoleError "Login error:" (LoggedError e)])).
Proof.
  intros req out [Hnet|(res & Hnet & Hok & Hbody)]; subst req; rewrite Hnet.
  - by apply login_rejected.
  - by apply login_unreadable.
Qed.

(** ** Every operation, by cases *)

(** What the mount effect does, whatever the environment: nothing but
    [setUser(null)] without a usable token; otherwise one who-am-I request,
    whose answer alone decides session, storage and console. *)
Lemma initialize_cases w :
  (initialize w = (Normal tt, World (localStorage w) VNull (trace w)) /\
   (localStorage w !! "token" = None \/ localStorage w !! "token" = Some "")) \/
  (exists t diag,
     localStorage w !! "token" = Some t /\ t <> "" /\
     let out := network (trace w) (whoami_request t) in
     initialize w =
       (Normal tt,
        World (if http_failed out then delete "token" (localStorage w)
               else localStorage w)
              (profile_of out)
              (trace w ++ EFetch (whoami_request t) out :: diag)) /\
     (diag = [] \/
      (exists e, diag = [EConsoleError "Error fetching user data:" (LoggedError e)]) \/
      (exists v, diag = [EConsoleError "Failed to fetch user data" (LoggedValue v);
                         ERemoveItem "token"]))).
Proof.
  destruct (localStorage w !! "token") as [t|] eqn:Hls;
    [|left; by rewrite (initialize_no_token _ Hls); auto].
  destruct (String.eqb t "") eqn:Ht.
  { apply String.eqb_eq in Ht as ->. left.
    by rewrite (initialize_empty_token _ Hls); auto. }
  right. apply String.eqb_neq in Ht as Hne. rewrite (initialize_token _ _ Hls Ht).
  exists t. simpl.
  destruct (network (trace w) (whoami_request t)) as [res|e] eqn:Hnet; simpl;
    [destruct (ok res) eqn:Hok; simpl;
     [destruct (json_body res) as [data|e] eqn:Hbody;
      [destruct (nullish data) eqn:Hnull|]|]|].
  - destruct (fetchUserData_nullish_body _ _ _ _ Hnet Hok Hbody Hnull) as [e ->].
    eexists. split_and!; [done..|]. right; left. by eexists.
  - rewrite (fetchUserData_body _ _ _ _ Hnet Hok Hbody Hnull).
    eexists. split_and!; [done..|]. by left.
  - rewrite (fetchUserData_unreadable _ _ _ _ Hnet Hok Hbody).
    eexists. split_and!; [done..|]. right; left. by eexists.
  - rewrite (fetchUserData_not_ok _ _ _ Hnet Hok).
    eexists. split_and!; [done..|]. right; right. by eexists.
  - rewrite (fetchUserData_rejected _ _ _ Hnet).
    eexists. split_and!; [done..|]. right; left. by eexists.
Qed.

(** What login does, whatever the environment: it stops at the login
    request with a truthy error and everything else untouched, or it goes
    all the way: token written, profile fetched, navigation. *)
Lemma login_cases w username password :
  let req := login_request username password in
  let out := network (trace w) req in
  (exists err diag,
     login username password w =
       (Normal err,
        World (localStorage w) (user w) (trace w ++ EFetch req out :: diag)) /\
     truthy err = true /\
     (diag = [] \/ exists e, diag = [EConsoleError "Login error:" (LoggedError e)])) \/
  (exists t,
     let sent := trace w ++ [EFetch req out; ESetItem "token" t] in
     let pout := network sent (whoami_request t) in
     login username password w =
       (Normal (VStr ""),
        World (<["token" := t]> (localStorage w)) (profile_of pout)
              (sent ++ [EFetch (whoami_request t) pout; ENavigate "/profile"]))).
Proof.
  simpl.
  destruct (network (trace w) (login_request username password)) as [res|e] eqn:Hnet;
    [destruct (ok res) eqn:Hok;
     [destruct (json_body res) as [data|e] eqn:Hbody;
      [destruct (truthy (field data "token")) eqn:Htok;
       [destruct (ToString (field data "token")) as [t|e] eqn:Hstr|]|]|]|].
  - right. exists t. by rewrite (login_token _ _ _ _ _ _ Hnet Hok Hbody Htok Hstr).
  - left. rewrite (login_token_unprintable _ _ _ _ _ _ Hnet Hok Hbody Htok Hstr).
    do 2 eexists. split_and!; [done..|]. right. by eexists.
  - left. rewrite (login_no_token _ _ _ _ _ Hnet Hok Hbody Htok).
    do 2 eexists. split_and!; [done..|]. by left.
  - left. rewrite (login_unreadable _ _ _ _ _ Hnet Hok Hbody).
    do 2 eexists. split_and!; [done..|]. right. by eexists.
  - left. rewrite (login_not_ok _ _ _ _ Hnet Hok).
    do 2 eexists. split_and!; [done| |by left]. by apply js_or_truthy.
  - left. rewrite (login_rejected _ _ _ _ Hnet).
    do 2 eexists. split_and!; [done..|]. right. by eexists.
Qed.

(** What register does, whatever the environment: one request, then at most
    a navigation or a console diagnostic; storage and session stay. *)
Lemma register_cases w userData :
  let req := register_request userData in
  let out := network (trace w) req in
  exists r diag,
    register userData w =
      (Normal r,
       World (localStorage w) (user w) (trace w ++ EFetch req out :: diag)) /\
    (diag = [] \/ diag = [ENavigate "/success"] \/
     exists e, diag = [EConsoleError "Register error:" (LoggedError e)]).
Proof.
  simpl.
  destruct (network (trace w) (register_request userData)) as [res|e] eqn:Hnet;
    [destruct (ok res) eqn:Hok|].
  - rewrite (register_ok _ _ _ Hnet Hok). do 2 eexists. split; [done|]. by right; left.
  - rewrite (register_not_ok _ _ _ Hnet Hok). do 2 eexists. split; [done|]. by left.
  - rewrite (register_rejected _ _ _ Hnet). do 2 eexists. split; [done|].
    right; right. by eexists.
Qed.

Lemma profile_of_well_formed out : well_formed_session (profile_of out).
Proof.
  unfold well_formed_session, profile_of, js_or.
  destruct out as [res|e]; [|by left].
  destruct (ok res); [|by left].
  destruct (json_body res) as [data|e]; [|by left].
  destruct (nullish data); [by left|].
  destruct (truthy (field data "user")) eqn:Hu; [by right|by left].
Qed.

(** ** Further properties of the operations *)

Ltac not_among :=
  let Hin := fresh "Hin" in
  intros Hin;
  repeat (apply elem_of_cons in Hin as [Hin|Hin]; [discriminate Hin|]);
  by apply elem_of_nil in Hin.

(** X1.  No operation lets an error escape: whatever the network does and
    whatever the state, the mount effect, logout, login and register all
    complete normally, the last two with a value. *)
Theorem operations_never_throw w :
  outcome initialize w = Normal tt /\
  outcome logout w = Normal tt /\
  (forall username password, exists r, outcome (login username password) w = Normal r) /\
  (forall userData, exists r, outcome (register userData) w = Normal r).
Proof.
  unfold outcome. split_and!.
  - by destruct (initialize_cases w) as [[-> _]|(t & diag & _ & _ & -> & _)].
  - by rewrite logout_run.
  - intros username password.
    destruct (login_cases w username password)
      as [(err & diag & -> & _)|(t & ->)]; by eexists.
  - intros userData.
    destruct (register_cases w userData) as (r & diag & -> & _). by eexists.
Qed.

(** X2.  Login is all or nothing.  Either it returns the empty string, and
    then it has written a token to storage and its last act was the
    navigation to /profile; or it returns a truthy error, and then storage
    and session are untouched, nothing was written and no navigation
    happened. *)
Theorem login_all_or_nothing w username password :
  let w' := exec (login username password) w in
  exists r evs,
    outcome (login username password) w = Normal r /\
    trace w' = trace w ++ evs /\
    ((r = VStr "" /\
      (exists t, localStorage w' = <["token" := t]> (localStorage w) /\
                 ESetItem "token" t ∈ evs) /\
      last evs = Some (ENavigate "/profile")) \/
     (truthy r = true /\
      localStorage w' = localStorage w /\ user w' = user w /\
      (forall to, ENavigate to ∉ evs) /\
      (forall key val, ESetItem key val ∉ evs))).
Proof.
  unfold exec, outcome.
  destruct (login_cases w username password)
    as [(err & diag & -> & Herr & Hdiag)|(t & ->)]; simpl.
  - do 2 eexists. split_and!; [done..|]. right. split_and!; [done..| |].
    + intros to. destruct Hdiag as [->|[e ->]]; not_among.
    + intros key val. destruct Hdiag as [->|[e ->]]; not_among.
  - do 2 eexists. split_and!; [done|by rewrite <- app_assoc|].
    left. split_and!; [done| |done].
    exists t. split; [done|]. apply list_elem_of_further, list_elem_of_here.
Qed.

(** X3.  A hard reload while logged in: with a non-empty token in storage
    and a who-am-I answer that is a success carrying a user record, the
    mount effect sets the session to that record, keeps the token and logs
    nothing; the request is its only effect. *)
Theorem initialize_restores_session w t res data :
  localStorage w !! "token" = Some t -> t <> "" ->
  network (trace w) (whoami_request t) = Resolved res ->
  ok res = true -> json_body res = Normal data ->
  truthy (field data "user") = true ->
  initialize w =
    (Normal tt,
     World (localStorage w) (field data "user")
           (trace w ++ [EFetch (whoami_request t) (Resolved res)])).
Proof.
  intros Hls Hne Hnet Hok Hbody Huser.
  apply String.eqb_neq in Hne. rewrite (initialize_token _ _ Hls Hne).
  destruct (field_truthy_object _ _ Huser) as [_ Hnull].
  rewrite (fetchUserData_body _ _ _ _ Hnet Hok Hbody Hnull).
  unfold js_or. by rewrite Huser.
Qed.

(** Checks a concrete list of appended events against [expected]. *)
Ltac all_expected :=
  repeat match goal with
         | |- Forall _ [] => constructor
         | |- Forall _ (_ :: _) => constructor
         | |- expected (EFetch (whoami_request _) _) => left; by eexists
         | |- expected (EFetch (login_request _ _) _) => right; left; by do 2 eexists
         | |- expected (EFetch (register_request _) _) => right; right; by eexists
         | |- expected _ => by (simpl; repeat constructor)
         end.

(** What one operation does to storage, session and trace, in the terms the
    properties over sequences need. *)
Lemma perform_shape op w :
  exists evs,
    trace (perform op w) = trace w ++ evs /\
    Forall expected evs /\
    length (requests evs) <= budget op /\
    (forall key, key <> "token" ->
       localStorage (perform op w) !! key = localStorage w !! key) /\
    (well_formed_session (user w) -> well_formed_session (user (perform op w))).
Proof.
  destruct op as [|username password| |userData]; cbn [perform budget]; unfold exec.
  - destruct (initialize_cases w)
      as [[-> _]|(t & diag & Hls & Hne & -> & Hdiag)]; simpl.
    + exists []. rewrite app_nil_r. split_and!; [done|done|simpl; lia|done|by left].
    + eexists. split; [done|]. split_and!.
      * destruct Hdiag as [->|[[e ->]|[v ->]]]; all_expected.
      * destruct Hdiag as [->|[[e ->]|[v ->]]]; simpl; lia.
      * intros key Hkey. destruct (http_failed _); [|done].
        by rewrite lookup_delete_ne.
      * intros _. apply profile_of_well_formed.
  - destruct (login_cases w username password)
      as [(err & diag & -> & Herr & Hdiag)|(t & ->)]; simpl.
    + eexists. split; [done|]. split_and!; [| |done..].
      * destruct Hdiag as [->|[e ->]]; all_expected.
      * destruct Hdiag as [->|[e ->]]; simpl; lia.
    + eexists. split; [by rewrite <- app_assoc|]. simpl. split_and!.
      * all_expected.
      * simpl. lia.
      * intros key Hkey. by rewrite lookup_insert_ne.
      * intros _. apply profile_of_well_formed.
  - rewrite logout_run. simpl. eexists. split; [done|]. split_and!.
    + all_expected.
    + simpl. lia.
    + intros key Hkey. by rewrite lookup_delete_ne.
    + intros _. by left.
  - destruct (register_cases w userData) as (r & diag & -> & Hdiag); simpl.
    eexists. split; [done|]. split_and!; [| |done..].
    + destruct Hdiag as [->|[->|[e ->]]]; all_expected.
    + destruct Hdiag as [->|[->|[e ->]]]; simpl; lia.
Qed.

Lemma requests_app evs evs' : requests (evs ++ evs') = requests evs ++ requests evs'.
Proof. apply omap_app. Qed.

Lemma run_shape ops w :
  exists evs,
    trace (run ops w) = trace w ++ evs /\
    Forall expected evs /\
    length (requests evs) <= sum_list (budget <$> ops) /\
    (forall key, key <> "token" ->
       localStorage (run ops w) !! key = localStorage w !! key) /\
    (well_formed_session (user w) -> well_formed_session (user (run ops w))).
Proof.
  revert w. induction ops as [|op ops IH]; intros w; simpl.
  { exists []. by rewrite app_nil_r. }
  destruct (perform_shape op w) as (evs1 & Htr1 & Hex1 & Hlen1 & Hls1 & Hu1).
  destruct (IH (perform op w)) as (evs2 & Htr2 & Hex2 & Hlen2 & Hls2 & Hu2).
  exists (evs1 ++ evs2). split_and!.
  - by rewrite Htr2, Htr1, app_assoc.
  - by apply Forall_app.
  - rewrite requests_app, length_app. unfold fmap in Hlen2. lia.
  - intros key Hkey. by rewrite Hls2, Hls1.
  - auto.
Qed.

(** X4.  The component owns one key of [localStorage]: whatever sequence of
    operations runs, every key other than "token" keeps its value (or its
    absence). *)
Theorem storage_frame ops w key :
  key <> "token" ->
  localStorage (run ops w) !! key = localStorage w !! key.
Proof.
  intros Hkey. destruct (run_shape ops w) as (_ & _ & _ & _ & Hls & _). auto.
Qed.

(** X5.  The session is always [null] or a truthy value: started from such
    a state, no sequence of operations ever publishes a falsy non-null
    [user] (an empty string, [false], zero, [undefined]). *)
Theorem session_well_formed ops w :
  well_formed_session (user w) ->
  well_formed_session (user (run ops w)).
Proof.
  destruct (run_shape ops w) as (_ & _ & _ & _ & _ & Hu). exact Hu.
Qed.

(** X6.  The component's whole footprint: over any sequence of operations it
    only appends to the trace, and what it appends are requests to its three
    endpoints (who-am-I, login, register), writes and removals of the key
    "token", navigations to /, /profile or /success, and console
    diagnostics under its four labels. *)
Theorem footprint ops w :
  exists evs,
    trace (run ops w) = trace w ++ evs /\ Forall expected evs.
Proof.
  destruct (run_shape ops w) as (evs & Htr & Hex & _). by exists evs.
Qed.

(** X7.  No retries: a sequence of operations sends at most one request per
    mount, two per login, none per logout and one per register. *)
Theorem no_retries ops w :
  exists evs,
    trace (run ops w) = trace w ++ evs /\
    length (requests evs) <= sum_list (budget <$> ops).
Proof.
  destruct (run_shape ops w) as (evs & Htr & _ & Hlen & _). by exists evs.
Qed.


(** X9.  Mounting again after a logout does nothing: the token is gone, so
    no request is sent, nothing is logged, and the session stays absent. *)
Theorem mount_after_logout w :
  initialize (reload (exec logout w)) = (Normal tt, exec logout w).
Proof.
  unfold exec. rewrite logout_run. simpl.
  rewrite initialize_no_token; [done|]. apply lookup_delete_eq.
Qed.

(** X10.  A token that cannot be turned into a string never reaches
    storage: when the login response carries a truthy [token] whose
    conversion to a string throws, [setItem] throws inside the outer [try],
    and login returns "unable to login" with storage and session untouched,
    the error logged, and neither a who-am-I request nor a navigation. *)
Theorem login_token_not_printable w username password res data e :
  network (trace w) (login_request username password) = Resolved res ->
  ok res = true -> json_body res = Normal data ->
  truthy (field data "token") = true ->
  ToString (field data "token") = Throw e ->
  login username password w =
    (Normal (VStr "unable to login"),
     World (localStorage w) (user w)
           (trace w ++ [EFetch (login_request username password) (Resolved res);
                        EConsoleError "Login error:" (LoggedError e)])).
Proof. apply login_token_unprintable. Qed.

Lemma token_through_app tok evs evs' :
  token_through tok (evs ++ evs') = token_through (token_through tok evs) evs'.
Proof. apply foldl_app. Qed.

Lemma bearers_follow_storage_app tok evs evs' :
  bearers_follow_storage tok evs ->
  bearers_follow_storage (token_through tok evs) evs' ->
  bearers_follow_storage tok (evs ++ evs').
Proof.
  revert tok. induction evs as [|ev evs IH]; intros tok; simpl; [done|].
  intros [Hev Hevs] Hrest. split; [done|]. by apply IH.
Qed.

Lemma bearers_follow_storage_at tok pre req out post :
  bearers_follow_storage tok (pre ++ EFetch req out :: post) ->
  is_whoami req = true ->
  exists t, token_through tok pre = Some t /\ carries req t.
Proof.
  revert tok. induction pre as [|ev pre IH]; intros tok; simpl.
  - intros [Hev _]. exact Hev.
  - intros [_ Hrest]. by apply IH.
Qed.

(** One operation keeps the storage events in step with storage, and sends
    who-am-I only with the token stored at that moment. *)
Lemma perform_bearers op w :
  exists evs,
    trace (perform op w) = trace w ++ evs /\
    bearers_follow_storage (localStorage w !! "token") evs /\
    token_through (localStorage w !! "token") evs
      = localStorage (perform op w) !! "token".
Proof.
  assert (Hwho : forall t,
            is_whoami (whoami_request t) = true ->
            exists t', Some t = Some t' /\ carries (whoami_request t) t').
  { intros t _. exists t. split; [done|apply carries_whoami]. }
  assert (Hlogin : forall tok username password,
            is_whoami (login_request username password) = true ->
            exists t, tok = Some t /\ carries (login_request username password) t).
  { intros tok username password Hreq. by rewrite is_whoami_login in Hreq. }
  assert (Hregister : forall tok userData,
            is_whoami (register_request userData) = true ->
            exists t, tok = Some t /\ carries (register_request userData) t).
  { intros tok userData Hreq. by rewrite is_whoami_register in Hreq. }
  destruct op as [|username password| |userData]; cbn [perform]; unfold exec.
  - destruct (localStorage w !! "token") as [t|] eqn:Hls;
      [|rewrite (initialize_no_token _ Hls); exists []; rewrite app_nil_r; simpl;
        by rewrite ?Hls].
    destruct (String.eqb t "") eqn:Ht.
    { apply String.eqb_eq in Ht as ->. rewrite (initialize_empty_token _ Hls).
      exists []. rewrite app_nil_r. simpl. by rewrite ?Hls. }
    rewrite (initialize_token _ _ Hls Ht).
    destruct (network (trace w) (whoami_request t)) as [res|e] eqn:Hnet;
      [destruct (ok res) eqn:Hok;
       [destruct (json_body res) as [data|e] eqn:Hbody;
        [destruct (nullish data) eqn:Hnull|]|]|].
    + destruct (fetchUserData_nullish_body _ _ _ _ Hnet Hok Hbody Hnull) as [e ->].
      eexists. split; [done|]. simpl. rewrite Hls. split_and!; try done. apply Hwho.
    + rewrite (fetchUserData_body _ _ _ _ Hnet Hok Hbody Hnull).
      eexists. split; [done|]. simpl. rewrite Hls. split_and!; try done. apply Hwho.
    + rewrite (fetchUserData_unreadable _ _ _ _ Hnet Hok Hbody).
      eexists. split; [done|]. simpl. rewrite Hls. split_and!; try done. apply Hwho.
    + rewrite (fetchUserData_not_ok _ _ _ Hnet Hok).
      eexists. split; [done|]. simpl. rewrite lookup_delete_eq.
      split_and!; try done. apply Hwho.
    + rewrite (fetchUserData_rejected _ _ _ Hnet).
      eexists. split; [done|]. simpl. rewrite Hls. split_and!; try done. apply Hwho.
  - destruct (login_cases w username password)
      as [(err & diag & -> & Herr & Hdiag)|(t & ->)]; simpl.
    + eexists. split; [done|].
      destruct Hdiag as [->|[e ->]]; simpl; split_and!; try done; apply Hlogin.
    + eexists. split; [by rewrite <- app_assoc|]. simpl.
      rewrite lookup_insert_eq. split_and!; try done; [apply Hlogin|apply Hwho].
  - rewrite logout_run. simpl. eexists. split; [done|]. simpl.
    by rewrite lookup_delete_eq.
  - destruct (register_cases w userData) as (r & diag & -> & Hdiag); simpl.
    eexists. split; [done|].
    destruct Hdiag as [->|[->|[e ->]]]; simpl; split_and!; try done; apply Hregister.
Qed.

Lemma run_bearers ops w :
  exists evs,
    trace (run ops w) = trace w ++ evs /\
    bearers_follow_storage (localStorage w !! "token") evs /\
    token_through (localStorage w !! "token") evs
      = localStorage (run ops w) !! "token".
Proof.
  revert w. induction ops as [|op ops IH]; intros w; simpl.
  { exists []. by rewrite app_nil_r. }
  destruct (perform_bearers op w) as (evs1 & Htr1 & Hok1 & Htok1).
  destruct (IH (perform op w)) as (evs2 & Htr2 & Hok2 & Htok2).
  exists (evs1 ++ evs2). split_and!.
  - by rewrite Htr2, Htr1, app_assoc.
  - apply bearers_follow_storage_app; [done|]. by rewrite Htok1.
  - by rewrite token_through_app, Htok1.
Qed.

(** X11.  A who-am-I request never presents anything but the stored token.
    Over any sequence of operations, at the moment such a request is sent,
    its Authorization header is "Bearer " followed by the string that is
    under "token" in storage at that moment (the storage the sequence
    started with, updated by every [setItem] and [removeItem] before the
    request); in particular none is sent while no token is stored. *)
Theorem whoami_carries_stored_token ops w :
  exists evs,
    trace (run ops w) = trace w ++ evs /\
    forall pre req out post,
      evs = pre ++ EFetch req out :: post ->
      is_whoami req = true ->
      exists t,
        token_through (localStorage w !! "token") pre = Some t /\
        carries req t.
Proof.
  destruct (run_bearers ops w) as (evs & Htr & Hok & _).
  exists evs. split; [done|]. intros pre req out post ->.
  by apply (bearers_follow_storage_at _ pre req out post).
Qed.

(** X12.  A success answer whose body is [null] is handled as an error at
    mount: reading [data.user] throws a TypeError into the [catch] block, so
    the session ends absent and the error is logged, but the token stays in
    storage. *)
Theorem initialize_null_body w t res data :
  localStorage w !! "token" = Some t -> t <> "" ->
  network (trace w) (whoami_request t) = Resolved res ->
  ok res = true -> json_body res = Normal data -> nullish data = true ->
  exists e,
    error_name e = "TypeError" /\
    initialize w =
      (Normal tt,
       World (localStorage w) VNull
             (trace w ++ [EFetch (whoami_request t) (Resolved res);
                          EConsoleError "Error fetching user data:" (LoggedError e)])).
Proof.
  intros Hls Hne Hnet Hok Hbody Hnull.
  apply String.eqb_neq in Hne. rewrite (initialize_token _ _ Hls Hne).
  unfold fetchUserData. unfold_M. rewrite Hnet, Hok, Hbody. simpl.
  destruct data; try discriminate; simpl; eexists; (split; [|by trace_assoc]); done.
Qed.

(** X13.  The mount effect can only take the token away: it never writes to
    storage and never navigates, and the storage it leaves is the one it
    found, with or without the token. *)
Theorem mount_only_removes w :
  let w' := exec initialize w in
  exists evs,
    trace w' = trace w ++ evs /\
    (forall to, ENavigate to ∉ evs) /\
    (forall key val, ESetItem key val ∉ evs) /\
    (localStorage w' = localStorage w \/
     localStorage w' = delete "token" (localStorage w)).
Proof.
  unfold exec.
  destruct (initialize_cases w)
    as [[-> _]|(t & diag & Hls & Hne & -> & Hdiag)]; simpl.
  { exists []. rewrite app_nil_r. split_and!; [done| | |by left].
    - intros to. not_among.
    - intros key val. not_among. }
  eexists. split_and!; [done| | |].
  - intros to. destruct Hdiag as [->|[[e ->]|[v ->]]]; not_among.
  - intros key val. destruct Hdiag as [->|[[e ->]|[v ->]]]; not_among.
  - destruct (http_failed _); [by right|by left].
Qed.


(** X15.  A login that does not get as far as writing the token: when the
    login endpoint answers with a non-success status, login returns the
    [message] field of the body if that is truthy and "login failed"
    otherwise; when it answers with success and a body without a truthy
    [token] field, login returns "no token".  In each case the result is
    truthy (never the empty success signal), storage and session are as
    before, and the login request is the only effect. *)
Theorem login_refused w username password res :
  network (trace w) (login_request username password) = Resolved res ->
  ok res = false \/
  (ok res = true /\
   exists data, json_body res = Normal data /\ truthy (field data "token") = false) ->
  exists err,
    login username password w =
      (Normal err,
       World (localStorage w) (user w)
             (trace w ++ [EFetch (login_request username password) (Resolved res)])) /\
    (ok res = false -> truthy (server_message res) = true ->
     err = server_message res) /\
    (ok res = false -> truthy (server_message res) = false ->
     err = VStr "login failed") /\
    (ok res = true -> err = VStr "no token") /\
    truthy err = true.
Proof.
  intros Hnet [Hok|(Hok & data & Hbody & Htok)]; rewrite Hok.
  - exists (js_or (server_message res) (VStr "login failed")).
    rewrite (login_not_ok _ _ _ _ Hnet Hok). unfold js_or.
    destruct (truthy (server_message res)) eqn:Hmsg; by split_and!.
  - exists (VStr "no token").
    rewrite (login_no_token _ _ _ _ _ Hnet Hok Hbody Htok). by split_and!.
Qed.

(** X16.  At mount, a who-am-I success answer whose body is a JSON value
    other than [null] and has no truthy [user] field is no error: the
    session ends absent, storage keeps the token, and the request is the
    only effect, nothing is logged. *)
Theorem initialize_no_user_field w t res data :
  localStorage w !! "token" = Some t -> t <> "" ->
  network (trace w) (whoami_request t) = Resolved res ->
  ok res = true -> json_body res = Normal data ->
  nullish data = false ->
  truthy (field data "user") = false ->
  initialize w =
    (Normal tt,
     World (localStorage w) VNull
           (trace w ++ [EFetch (whoami_request t) (Resolved res)])).
Proof.
  intros Hls Hne Hnet Hok Hbody Hnull Huser.
  apply String.eqb_neq in Hne. rewrite (initialize_token _ _ Hls Hne).
  rewrite (fetchUserData_body _ _ _ _ Hnet Hok Hbody Hnull).
  unfold js_or. by rewrite Huser.
Qed.

(** ** The two halves of the mount effect *)

#[local] Existing Instance M_ret.
#[local] Existing Instance M_bind.

Lemma fetch_send_settle req w : fetch req w = (out ← send req; settle out) w.
Proof. unfold send, settle. unfold_M. by destruct (network (trace w) req). Qed.

(** Run without anything in between, the two halves are the mount effect. *)
Lemma initialize_split w :
  initialize w = (pending ← initialize_start; initialize_resume pending) w.
Proof.
  unfold initialize, initialize_start, initialize_resume, fetchUserData,
    fetchUserData_resume, send, settle.
  unfold_M. destruct (localStorage w !! "token") as [t|]; [|done].
  destruct (String.eqb t ""); [done|]. simpl.
  by destruct (network (trace w) (whoami_request t)).
Qed.

End Properties.

(** ** The scenarios, run *)

Import Scenario.

(** C1 as worded fails: after a successful login followed by one the server
    refuses, the session is still there although the most recent check, the
    refused credential check, did not succeed. *)
Lemma refused_login_keeps_session :
  let w := run (env := server) [credentials "good"; credentials "bad"] (mount ∅) in
  user (mount ∅) = VNull /\
  user w = user1 /\
  ~ last_check_succeeded (env := server) (trace w).
Proof.
  split; [reflexivity|]. split; [reflexivity|].
  intros (res & Hlast & Hok). vm_compute in Hlast.
  injection Hlast as <-. discriminate Hok.
Qed.

(** The same run: the session of the first login survives the second, still
    backed by the accepted token. *)
Lemma session_backed_by_accepted_token_witness :
  let w := run (env := server) [credentials "good"; credentials "bad"] (mount ∅) in
  user w = user1 /\
  validated (env := server) w /\
  forall t, localStorage w !! "token" = Some t ->
            ~ rejected (env := server) (trace w) t.
Proof.
  split; [reflexivity|].
  apply (session_backed_by_accepted_token (env := server));
    [reflexivity | vm_compute; discriminate].
Defined.

Lemma login_success_witness :
  login (env := server) (VStr "u") (VStr "good") (mount ∅) =
    (Normal (VStr ""),
     World {["token" := "abc"]} (user1)
           [EFetch (login_request (env := server) (VStr "u") (VStr "good"))
                   (respond true "OK" [("token", VStr "abc")]);
            ESetItem "token" "abc";
            EFetch (whoami_request (env := server) "abc")
                   (respond true "OK" [("user", user1)]);
            ENavigate "/profile"]).
Proof.
  apply (login_success (numbers := integers) (env := server) (mount ∅) (VStr "u") (VStr "good")
           (Response true "OK" (Normal (VObj [("token", VStr "abc")])))
           (VObj [("token", VStr "abc")]) "abc"
           (Response true "OK" (Normal (VObj [("user", user1)])))
           (VObj [("user", user1)]));
    reflexivity.
Defined.

Lemma initialize_token_removal_witness :
  localStorage (exec (initialize (env := forgetful_server)) (stored "abc")) !! "token"
    = None.
Proof.
  destruct (initialize_token_removal (env := forgetful_server) (stored "abc") "abc")
    as (_ & _ & Hremoved & _); [reflexivity|].
  apply Hremoved. split; [discriminate | reflexivity].
Defined.

Lemma login_refused_witness :
  login (env := server) (VStr "u") (VStr "bad") (stored "old") =
    (Normal (VStr "bad creds"),
     World {["token" := "old"]} VNull
           [EFetch (login_request (env := server) (VStr "u") (VStr "bad"))
                   (respond false "Unauthorized" [("message", VStr "bad creds")])]).
Proof.
  destruct (login_refused (env := server) (stored "old") (VStr "u") (VStr "bad")
              (Response false "Unauthorized"
                        (Normal (VObj [("message", VStr "bad creds")]))))
    as (err & Hrun & Hmsg & _); [reflexivity | left; reflexivity |].
  rewrite Hrun, (Hmsg eq_refl eq_refl). reflexivity.
Defined.

Lemma login_profile_failure_witness :
  login (env := forgetful_server) (VStr "u") (VStr "good") (mount ∅) =
    (Normal (VStr ""),
     World {["token" := "abc"]} VNull
           [EFetch (login_request (env := forgetful_server) (VStr "u") (VStr "good"))
                   (respond true "OK" [("token", VStr "abc")]);
            ESetItem "token" "abc";
            EFetch (whoami_request (env := forgetful_server) "abc")
                   (respond false "Unauthorized" []);
            ENavigate "/profile"]).
Proof.
  apply (login_profile_failure (env := forgetful_server) (mount ∅)
           (VStr "u") (VStr "good")
           (Response true "OK" (Normal (VObj [("token", VStr "abc")])))
           (VObj [("token", VStr "abc")]) "abc");
    [reflexivity.. | left; reflexivity].
Defined.

Lemma initialize_without_token_witness :
  initialize (env := server) (mount ∅) = (Normal tt, mount ∅).
Proof.
  apply (initialize_without_token (env := server) (mount ∅)). reflexivity.
Defined.

Lemma initialize_no_user_field_witness :
  initialize (env := registrar) (stored "abc") =
    (Normal tt,
     World {["token" := "abc"]} VNull
           [EFetch (whoami_request (env := registrar) "abc") (respond true "OK" [])]).
Proof.
  apply (initialize_no_user_field (env := registrar) (stored "abc") "abc"
           (Response true "OK" (Normal (VObj []))) (VObj []));
    [reflexivity | discriminate | reflexivity..].
Defined.

Lemma login_transport_failure_witness :
  login (env := offline) (VStr "u") (VStr "good") (stored "old") =
    (Normal (VStr "unable to login"),
     World {["token" := "old"]} VNull
           [EFetch (login_request (env := offline) (VStr "u") (VStr "good"))
                   (Rejected (TypeError "Failed to fetch"));
            EConsoleError "Login error:" (LoggedError (TypeError "Failed to fetch"))]).
Proof.
  apply (login_transport_failure (env := offline) (stored "old")
           (VStr "u") (VStr "good") (TypeError "Failed to fetch")).
  left; reflexivity.
Defined.

(** The remaining examples of the specification, by evaluation. *)

Example register_created :
  register (env := registrar) (VObj [("utorid", VStr "u")]) (stored "old") =
    (Normal (VStr ""),
     World {["token" := "old"]} VNull
           [EFetch (register_request (env := registrar) (VObj [("utorid", VStr "u")]))
                   (respond true "Created" []);
            ENavigate "/success"]).
Proof. reflexivity. Qed.

Example register_refused_without_message :
  outcome (register (env := registrar) (VObj [])) (mount ∅) =
    Normal (VStr "registration failed").
Proof. reflexivity. Qed.

Example login_without_token_field :
  login (env := registrar) (VStr "u") (VStr "good") (stored "old") =
    (Normal (VStr "no token"),
     World {["token" := "old"]} VNull
           [EFetch (login_request (env := registrar) (VStr "u") (VStr "good"))
                   (respond true "Created" [])]).
Proof. reflexivity. Qed.

Example unreachable_at_mount_keeps_token :
  let w' := exec (initialize (env := offline)) (stored "abc") in
  user w' = VNull /\ localStorage w' !! "token" = Some "abc".
Proof. split; reflexivity. Qed.

Example array_token_prints_empty :
  ToString (VArr [VNull]) = Normal "" /\
  ToString (VArr [VStr "a"; VNull; VArr [VBool true; VUndefined]]) = Normal "a,,true,".
Proof. split; reflexivity. Qed.

(** ** The further properties, run *)

Lemma initialize_restores_session_witness :
  initialize (env := server) (stored "abc") =
    (Normal tt,
     World {["token" := "abc"]} user1
           [EFetch (whoami_request (env := server) "abc")
                   (respond true "OK" [("user", user1)])]).
Proof.
  apply (initialize_restores_session (env := server) (stored "abc") "abc"
           (Response true "OK" (Normal (VObj [("user", user1)])))
           (VObj [("user", user1)]));
    [reflexivity | discriminate | reflexivity..].
Defined.

Lemma storage_frame_witness :
  localStorage (run (env := server) [credentials "good"; OpLogout] themed) !! "theme"
    = Some "dark".
Proof.
  transitivity (localStorage themed !! "theme"); [|reflexivity].
  apply (storage_frame (env := server)). discriminate.
Defined.

Lemma session_well_formed_witness :
  well_formed_session
    (user (run (env := server) [credentials "good"; credentials "bad"] (mount ∅))).
Proof.
  apply (session_well_formed (env := server)). left. reflexivity.
Defined.


Lemma login_token_not_printable_witness :
  login (env := careless_server) (VStr "u") (VStr "good") (stored "old") =
    (Normal (VStr "unable to login"),
     World {["token" := "old"]} VNull
           [EFetch (login_request (env := careless_server) (VStr "u") (VStr "good"))
                   (respond true "OK" [("token", odd_token)]);
            EConsoleError "Login error:"
              (LoggedError (TypeError "Cannot convert object to primitive value"))]).
Proof.
  apply (login_token_not_printable (env := careless_server) (stored "old")
           (VStr "u") (VStr "good")
           (Response true "OK" (Normal (VObj [("token", odd_token)])))
           (VObj [("token", odd_token)])
           (TypeError "Cannot convert object to primitive value"));
    reflexivity.
Defined.

Lemma initialize_null_body_witness :
  exists e,
    error_name e = "TypeError" /\
    initialize (env := null_server) (stored "abc") =
      (Normal tt,
       World {["token" := "abc"]} VNull
             [EFetch (whoami_request (env := null_server) "abc")
                     (Resolved (Response true "OK" (Normal VNull)));
              EConsoleError "Error fetching user data:" (LoggedError e)]).
Proof.
  apply (initialize_null_body (env := null_server) (stored "abc") "abc"
           (Response true "OK" (Normal VNull)) VNull);
    [reflexivity | discriminate | reflexivity..].
Defined.


(** ** The revised statements, run *)

Lemma register_frame_witness :
  let d := VObj [("utorid", VStr "u")] in
  let w := stored "old" in
  outcome (register (env := refusing_server) d) w = Normal (VStr "utorid taken") /\
  localStorage (exec (register (env := refusing_server) d) w) = {["token" := "old"]} /\
  user (exec (register (env := refusing_server) d) w) = VNull.
Proof.
  intros d w.
  pose proof (register_frame (env := refusing_server) w d) as (Hls & Hu & Hmsg & _).
  split; [apply Hmsg; reflexivity|]. split; [exact Hls|exact Hu].
Defined.

(** C4, at a failing input.  The claim (and the JSDoc, [@returns {string}])
    has a refused login return an error string; against a server that
    answers 400 with the body [{message: {code: 7}}], line 88 returns the
    object itself, which is no string.  Storage and session are untouched,
    as the claim says. *)
Theorem login_returns_structured_message :
  login (env := structured_server) (VStr "u") (VStr "bad") (stored "old") =
    (Normal error_object,
     World {["token" := "old"]} VNull
           [EFetch (login_request (env := structured_server) (VStr "u") (VStr "bad"))
                   (respond false "Bad Request" [("message", error_object)])]) /\
  is_string error_object = false.
Proof. split; reflexivity. Qed.


(** Why C1 speaks of operations that do not overlap.  With a login made
    while the mount effect's who-am-I request is pending, the effect's late
    continuation publishes the user of the old token "abc" although storage
    by then holds the new token "xyz", which the server has just refused. *)
Lemma mount_overlapping_login :
  user overlapped = user1 /\
  localStorage overlapped !! "token" = Some "xyz" /\
  rejected (env := forgetful_of_new_tokens) (trace overlapped) "xyz".
Proof.
  split; [reflexivity|]. split; [reflexivity|].
  eexists. split; reflexivity.
Qed.
